(** * Flush policies of the DWRF writer

    A shallow embedding of [velox/dwio/dwrf/writer/FlushPolicy.h]: the
    [FlushDecision] enumeration, the abstract [DWRFFlushPolicy] interface and
    its four implementations ([DefaultFlushPolicy], [RowsPerStripeFlushPolicy],
    [RowThresholdFlushPolicy], [LambdaFlushPolicy]).

    Conventions.  A [uint64_t] or [int64_t] value is a [Z]; the only
    arithmetic in the policies is the 64-bit addition on the assessment
    threshold, written with [wrap64].  A method that can change [this] returns
    the new object next to its result.  Calling a [std::function] can touch
    whatever the closure captured and can throw: such code runs in the monad
    [M] over a [World]. *)

From Stdlib Require Import ZArith List Bool Lia Sorted.
Import ListNotations.
Local Open Scope Z_scope.

(** ** Machine integers *)

Definition uint64_modulus : Z := 2 ^ 64.

(** The value a [uint64_t] holds after an arithmetic result [z]. *)
Definition wrap64 (z : Z) : Z := z mod uint64_modulus.

(** ** Shared data types *)

(** [enum class FlushDecision]. *)
Inductive FlushDecision : Type :=
| SKIP
| EVALUATE_DICTIONARY
| FLUSH_DICTIONARY
| ABANDON_DICTIONARY.

(** Modelled from the spec: [dwio::common::StripeProgress] is declared in
    velox/dwio/common/FlushPolicy.h, which is not among the sources.  The
    spec gives the snapshot two unsigned 64-bit fields; these are the only
    two the policies read. *)
Record StripeProgress : Type := {
  stripeSizeEstimate : Z;
  stripeRowCount : Z
}.

(** Modelled from the spec: [WriterContext] is declared in
    velox/dwio/dwrf/writer/WriterContext.h, which is not among the sources.
    The spec has it expose the current dictionary memory usage and the
    memory budget. *)
Record WriterContext : Type := {
  dictionaryMemoryUsage : Z;
  memoryBudget : Z
}.

(** Field-wise order on snapshots: a later snapshot of the same stripe has no
    smaller size and no smaller row count. *)
Definition progress_le (a b : StripeProgress) : Prop :=
  stripeSizeEstimate a <= stripeSizeEstimate b /\
  stripeRowCount a <= stripeRowCount b.

(** ** Effects: closures and exceptions *)

Section Effects.

(** [Env] is what the stored closures can reach (their captures); [Exn] is
    the type of the exceptions they can throw. *)
Variables Env Exn : Type.

(** The writer-side state a policy call can touch: the closures'
    environment, and a count of closure invocations kept by [invoke]. *)
Record World : Type := {
  env : Env;
  invocations : nat
}.

Inductive Outcome (A : Type) : Type :=
| Returned (a : A)
| Thrown (e : Exn).

Arguments Returned {A} a.
Arguments Thrown {A} e.

Definition M (A : Type) : Type := World -> Outcome A * World.

Definition ret {A} (a : A) : M A := fun w => (Returned a, w).

Definition bind {A B} (m : M A) (k : A -> M B) : M B :=
  fun w =>
    match m w with
    | (Returned a, w') => k a w'
    | (Thrown e, w') => (Thrown e, w')
    end.

(** [std::function<bool()>]: a closure over [Env] returning a [bool] or
    throwing. *)
Definition Callable : Type := Env -> Outcome bool * Env.

(** One call [f()]. *)
Definition invoke (f : Callable) : M bool :=
  fun w =>
    let (r, e') := f (env w) in
    (r, {| env := e'; invocations := S (invocations w) |}).

End Effects.

Arguments env {Env} w.
Arguments invocations {Env} w.
Arguments Returned {Exn A} a.
Arguments Thrown {Exn A} e.
Arguments ret {Env Exn A} a.
Arguments bind {Env Exn A B} m k.
Arguments invoke {Env Exn} f.

Notation "x <- m ;; k" := (bind m (fun x => k))
  (at level 61, m at next level, right associativity).

(** Faults a constructor can raise. *)
Inductive ConfigError : Type :=
| NonPositiveThreshold
| EmptyRowPlan.

(** ** The interface *)

(** [class DWRFFlushPolicy]: three pure virtual methods.  None of them is
    [const], so each hands back the object. *)
Class DWRFFlushPolicy (Env Exn P : Type) : Type := {
  shouldFlush : P -> StripeProgress -> M Env Exn (bool * P);
  shouldFlushDictionary :
    P -> bool -> bool -> StripeProgress -> WriterContext ->
    M Env Exn (FlushDecision * P);
  onClose : P -> M Env Exn (unit * P)
}.

(** The private method [getDictionaryAssessmentIncrement] is declared in the
    header and defined elsewhere; the spec leaves its formula open and only
    says that the increment is fixed and derived from the stripe-size
    threshold.  It is a parameter of the development. *)
Class AssessmentSchedule : Type := {
  getDictionaryAssessmentIncrement : Z -> Z
}.

(** Modelled from the spec: the position in the row-count plan.  The spec
    has the row-sequence policy use one plan entry per stripe, in order;
    [RowsPerStripeFlushPolicy] has a single constant member, so the position
    is not the object's: it is the number of stripes the writer has flushed,
    which does not change while one stripe is written. *)
Class StripePosition : Type := {
  stripeIndex : nat
}.

(** ** [class DefaultFlushPolicy] *)

Module DefaultFlushPolicy.

Record t : Type := {
  stripeSizeThreshold_ : Z;
  dictionarySizeThreshold_ : Z;
  dictionaryAssessmentThreshold_ : Z
}.

Definition shouldFlush (this : t) (stripeProgress : StripeProgress) : bool :=
  stripeSizeEstimate stripeProgress >=? stripeSizeThreshold_ this.

(** [void onClose() override {}] *)
Definition onClose (this : t) : t := this.

Section Assessment.

Context `{AssessmentSchedule}.

(** Modelled from the spec: the constructor is declared in the header and
    defined in FlushPolicy.cpp, which is not among the sources.  The spec
    asks for strictly positive thresholds, checked at construction.  It
    does not give the first value of the assessment threshold; the first
    checkpoint, one increment, is taken here. *)
Definition DefaultFlushPolicy
    (stripeSizeThreshold dictionarySizeThreshold : Z) : ConfigError + t :=
  if (0 <? stripeSizeThreshold) && (0 <? dictionarySizeThreshold)
  then inr {| stripeSizeThreshold_ := stripeSizeThreshold;
              dictionarySizeThreshold_ := dictionarySizeThreshold;
              dictionaryAssessmentThreshold_ :=
                getDictionaryAssessmentIncrement stripeSizeThreshold |}
  else inl NonPositiveThreshold.

(** [dictionaryAssessmentThreshold_ += getDictionaryAssessmentIncrement()]
    on a [uint64_t] member. *)
Definition advance (this : t) : t :=
  {| stripeSizeThreshold_ := stripeSizeThreshold_ this;
     dictionarySizeThreshold_ := dictionarySizeThreshold_ this;
     dictionaryAssessmentThreshold_ :=
       wrap64 (dictionaryAssessmentThreshold_ this +
               getDictionaryAssessmentIncrement
                 (stripeSizeThreshold_ this)) |}.

(** Modelled from the spec: the overload taking the dictionary memory
    usage is declared in the header and defined in FlushPolicy.cpp, which
    is not among the sources.  The four steps are those of the spec, in
    its order; none of them reads [dictionaryMemoryUsage]. *)
Definition shouldFlushDictionary
    (this : t) (flushStripe overMemoryBudget : bool)
    (stripeProgress : StripeProgress) (dictionaryMemoryUsage : Z)
    : FlushDecision * t :=
  if flushStripe then (FLUSH_DICTIONARY, this)
  else if overMemoryBudget then (ABANDON_DICTIONARY, this)
  else if stripeSizeEstimate stripeProgress >=?
          dictionaryAssessmentThreshold_ this
  then (EVALUATE_DICTIONARY, advance this)
  else (SKIP, this).

(** Modelled from the spec: the overriding overload, taking the writer
    context, is declared in the header and defined in FlushPolicy.cpp.
    The spec has it compare the context's dictionary memory usage with the
    dictionary threshold, take [flushStripe] from the caller or from
    [shouldFlush], and delegate; a caller's [overMemoryBudget] still gives
    [ABANDON_DICTIONARY], as the spec lists among its properties. *)
Definition shouldFlushDictionary_context
    (this : t) (flushStripe overMemoryBudget : bool)
    (stripeProgress : StripeProgress) (context : WriterContext)
    : FlushDecision * t :=
  shouldFlushDictionary this
    (flushStripe || shouldFlush this stripeProgress)
    (overMemoryBudget
     || (dictionaryMemoryUsage context >? dictionarySizeThreshold_ this))
    stripeProgress
    (dictionaryMemoryUsage context).

End Assessment.

End DefaultFlushPolicy.

(** ** [class RowsPerStripeFlushPolicy] *)

Module RowsPerStripeFlushPolicy.

(** The class has one member, the constant plan. *)
Record t : Type := {
  rowsPerStripe_ : list Z
}.

(** Modelled from the spec: the constructor is declared in the header and
    defined in FlushPolicy.cpp, which is not among the sources.  An empty
    plan and a row count that is not strictly positive are faults. *)
Definition RowsPerStripeFlushPolicy (rowsPerStripe : list Z)
    : ConfigError + t :=
  match rowsPerStripe with
  | [] => inl EmptyRowPlan
  | _ :: _ =>
      if forallb (fun rows => 0 <? rows) rowsPerStripe
      then inr {| rowsPerStripe_ := rowsPerStripe |}
      else inl NonPositiveThreshold
  end.

Section OneStripe.

Context `{StripePosition}.

(** The plan entry of the stripe being written; past the end of the plan,
    its last entry (the choice the spec recommends). *)
Definition target (this : t) : Z :=
  nth (Nat.min stripeIndex (length (rowsPerStripe_ this) - 1))
      (rowsPerStripe_ this) 0.

(** Modelled from the spec: [shouldFlush] is declared in the header and
    defined in FlushPolicy.cpp, which is not among the sources.  The spec
    has it compare the stripe's row count with the plan entry at the
    current position.  The object cannot hold that position, so it is the
    writer's [stripeIndex], and the call leaves the object as it is. *)
Definition shouldFlush (this : t) (stripeProgress : StripeProgress) : bool :=
  stripeRowCount stripeProgress >=? target this.

End OneStripe.

Definition shouldFlushDictionary
    (this : t) (flushStripe overMemoryBudget : bool)
    (stripeProgress : StripeProgress) (context : WriterContext)
    : FlushDecision :=
  SKIP.

(** [void onClose() override {}] *)
Definition onClose (this : t) : t := this.

End RowsPerStripeFlushPolicy.

(** ** [class RowThresholdFlushPolicy] *)

Module RowThresholdFlushPolicy.

Record t : Type := {
  rowCountThreshold_ : Z
}.

(** The constructor stores its argument; it has no other statement. *)
Definition RowThresholdFlushPolicy (rowCountThreshold : Z)
    : ConfigError + t :=
  inr {| rowCountThreshold_ := rowCountThreshold |}.

Definition shouldFlush (this : t) (stripeProgress : StripeProgress) : bool :=
  stripeRowCount stripeProgress >=? rowCountThreshold_ this.

Definition shouldFlushDictionary
    (this : t) (flushStripe overMemoryBudget : bool)
    (stripeProgress : StripeProgress) (context : WriterContext)
    : FlushDecision :=
  SKIP.

(** [void onClose() override {}] *)
Definition onClose (this : t) : t := this.

End RowThresholdFlushPolicy.

(** ** [class LambdaFlushPolicy] *)

Module LambdaFlushPolicy.

Section WithClosures.

Variables Env Exn : Type.

Record t : Type := {
  lambda_ : Callable Env Exn
}.

Definition LambdaFlushPolicy (lambda : Callable Env Exn)
    : ConfigError + t :=
  inr {| lambda_ := lambda |}.

(** [return lambda_();] *)
Definition shouldFlush (this : t) (unused : StripeProgress)
    : M Env Exn bool :=
  invoke (lambda_ this).

Definition shouldFlushDictionary
    (this : t) (flushStripe overMemoryBudget : bool)
    (stripeProgress : StripeProgress) (unused : WriterContext)
    : FlushDecision :=
  SKIP.

(** [void onClose() override {}] *)
Definition onClose (this : t) : t := this.

End WithClosures.

Arguments lambda_ {Env Exn} _.
Arguments LambdaFlushPolicy {Env Exn} lambda.
Arguments shouldFlush {Env Exn} this unused.
Arguments shouldFlushDictionary {Env Exn} this _ _ _ _.
Arguments onClose {Env Exn} this.

End LambdaFlushPolicy.


(** ** The four implementations of the interface *)

Section Implementations.

Variables Env Exn : Type.

#[global] Instance DefaultFlushPolicy_impl `{AssessmentSchedule}
    : DWRFFlushPolicy Env Exn DefaultFlushPolicy.t := {
  shouldFlush this stripeProgress :=
    ret (DefaultFlushPolicy.shouldFlush this stripeProgress, this);
  shouldFlushDictionary this flushStripe overMemoryBudget stripeProgress
      context :=
    ret (DefaultFlushPolicy.shouldFlushDictionary_context
           this flushStripe overMemoryBudget stripeProgress context);
  onClose this := ret (tt, DefaultFlushPolicy.onClose this)
}.

#[global] Instance RowsPerStripeFlushPolicy_impl `{StripePosition}
    : DWRFFlushPolicy Env Exn RowsPerStripeFlushPolicy.t := {
  shouldFlush this stripeProgress :=
    ret (RowsPerStripeFlushPolicy.shouldFlush this stripeProgress, this);
  shouldFlushDictionary this flushStripe overMemoryBudget stripeProgress
      context :=
    ret (RowsPerStripeFlushPolicy.shouldFlushDictionary
           this flushStripe overMemoryBudget stripeProgress context, this);
  onClose this := ret (tt, RowsPerStripeFlushPolicy.onClose this)
}.

#[global] Instance RowThresholdFlushPolicy_impl
    : DWRFFlushPolicy Env Exn RowThresholdFlushPolicy.t := {
  shouldFlush this stripeProgress :=
    ret (RowThresholdFlushPolicy.shouldFlush this stripeProgress, this);
  shouldFlushDictionary this flushStripe overMemoryBudget stripeProgress
      context :=
    ret (RowThresholdFlushPolicy.shouldFlushDictionary
           this flushStripe overMemoryBudget stripeProgress context, this);
  onClose this := ret (tt, RowThresholdFlushPolicy.onClose this)
}.

#[global] Instance LambdaFlushPolicy_impl
    : DWRFFlushPolicy Env Exn (LambdaFlushPolicy.t Env Exn) := {
  shouldFlush this stripeProgress :=
    answer <- LambdaFlushPolicy.shouldFlush this stripeProgress ;;
    ret (answer, this);
  shouldFlushDictionary this flushStripe overMemoryBudget stripeProgress
      context :=
    ret (LambdaFlushPolicy.shouldFlushDictionary
           this flushStripe overMemoryBudget stripeProgress context, this);
  onClose this := ret (tt, LambdaFlushPolicy.onClose this)
}.

End Implementations.

(** ** Sequences of calls on one policy object *)

(** The writer samples one stripe: [shouldFlush] is asked about each snapshot
    in turn, on the same object; an exception ends the sampling. *)
Fixpoint sampleStripe {Env Exn P : Type} `{DWRFFlushPolicy Env Exn P}
    (this : P) (snapshots : list StripeProgress) (w : World Env)
    : list (Outcome Exn bool) :=
  match snapshots with
  | [] => []
  | stripeProgress :: later =>
      match shouldFlush this stripeProgress w with
      | (Returned (answer, this'), w') =>
          Returned answer :: sampleStripe this' later w'
      | (Thrown e, _) => [Thrown e]
      end
  end.

(** No flip-flop: after an answer [true], every later answer is [true]. *)
Definition stays_true {Exn : Type} (answers : list (Outcome Exn bool)) : Prop :=
  forall i j : nat,
    (i <= j < length answers)%nat ->
    nth_error answers i = Some (Returned true) ->
    nth_error answers j = Some (Returned true).

(** [onClose] called [n] times in a row on the same object. *)
Fixpoint closeRepeatedly {Env Exn P : Type} `{DWRFFlushPolicy Env Exn P}
    (n : nat) (this : P) : M Env Exn (unit * P) :=
  match n with
  | O => ret (tt, this)
  | S n' => closed <- onClose this ;; closeRepeatedly n' (snd closed)
  end.

(** The schedule the spec suggests: a quarter of the stripe-size threshold. *)
Definition quarterSchedule : AssessmentSchedule :=
  {| getDictionaryAssessmentIncrement := fun stripeSizeThreshold =>
       stripeSizeThreshold / 4 |}.

(** The writer on its second stripe. *)
Definition secondStripe : StripePosition := {| stripeIndex := 1 |}.


(** The outcome of a call seen through a function on its result. *)
Definition outcome_map {Exn A B : Type} (f : A -> B) (o : Outcome Exn A)
    : Outcome Exn B :=
  match o with
  | Returned a => Returned (f a)
  | Thrown e => Thrown e
  end.

(** A closure whose captured flag flips at each call. *)
Definition toggling : Callable bool unit :=
  fun flag => (Returned flag, negb flag).


(** The largest [uint64_t]. *)
Definition UINT64_MAX : Z := uint64_modulus - 1.

(** The values a [uint64_t] can hold. *)
Definition is_uint64 (z : Z) : Prop := 0 <= z <= UINT64_MAX.

(** The world the writer is left with after sampling one stripe, with the
    same calls as [sampleStripe]. *)
Fixpoint stripeWorld {Env Exn P : Type} `{DWRFFlushPolicy Env Exn P}
    (this : P) (snapshots : list StripeProgress) (w : World Env)
    : World Env :=
  match snapshots with
  | [] => w
  | stripeProgress :: later =>
      match shouldFlush this stripeProgress w with
      | (Returned (_, this'), w') => stripeWorld this' later w'
      | (Thrown _, w') => w'
      end
  end.

(** * Properties *)

(** ** Helper facts *)

Lemma geb_true_iff (a b : Z) : (a >=? b) = true <-> a >= b.
Proof. rewrite Z.geb_leb, Z.leb_le. lia. Qed.

Lemma geb_false_iff (a b : Z) : (a >=? b) = false <-> a < b.
Proof. rewrite Z.geb_leb, Z.leb_gt. lia. Qed.

Lemma progress_le_refl (a : StripeProgress) : progress_le a a.
Proof. unfold progress_le; lia. Qed.

Lemma progress_le_trans : Relations_1.Transitive progress_le.
Proof. intros a b c [? ?] [? ?]; unfold progress_le; lia. Qed.

(** ** The threshold-based policy *)

(** C1.  [DefaultFlushPolicy::shouldFlushDictionary] (the overload taking the
    dictionary memory usage) decides in this order, for every input: a
    closing stripe gives [FLUSH_DICTIONARY]; otherwise memory pressure gives
    [ABANDON_DICTIONARY]; otherwise a stripe size at or past the assessment
    threshold moves the threshold one increment on (as a 64-bit addition) and
    gives [EVALUATE_DICTIONARY]; otherwise the answer is [SKIP].  Only the
    third case changes the object, and only its assessment threshold. *)
Theorem default_shouldFlushDictionary_precedence `{AssessmentSchedule} :
  forall (this : DefaultFlushPolicy.t) (flushStripe overMemoryBudget : bool)
         (stripeProgress : StripeProgress) (dictionaryMemoryUsage : Z),
    let result :=
      DefaultFlushPolicy.shouldFlushDictionary
        this flushStripe overMemoryBudget stripeProgress dictionaryMemoryUsage in
    let cursor := DefaultFlushPolicy.dictionaryAssessmentThreshold_ this in
    (flushStripe = true -> result = (FLUSH_DICTIONARY, this)) /\
    (flushStripe = false -> overMemoryBudget = true ->
     result = (ABANDON_DICTIONARY, this)) /\
    (flushStripe = false -> overMemoryBudget = false ->
     stripeSizeEstimate stripeProgress >= cursor ->
     fst result = EVALUATE_DICTIONARY /\
     DefaultFlushPolicy.dictionaryAssessmentThreshold_ (snd result) =
       wrap64 (cursor + getDictionaryAssessmentIncrement
                          (DefaultFlushPolicy.stripeSizeThreshold_ this)) /\
     DefaultFlushPolicy.stripeSizeThreshold_ (snd result) =
       DefaultFlushPolicy.stripeSizeThreshold_ this /\
     DefaultFlushPolicy.dictionarySizeThreshold_ (snd result) =
       DefaultFlushPolicy.dictionarySizeThreshold_ this) /\
    (flushStripe = false -> overMemoryBudget = false ->
     stripeSizeEstimate stripeProgress < cursor ->
     result = (SKIP, this)).
Proof.
  intros this f o sp usage result cursor.
  subst result cursor. unfold DefaultFlushPolicy.shouldFlushDictionary.
  split; [| split; [| split]].
  - intros ->. reflexivity.
  - intros -> ->. reflexivity.
  - intros -> -> Hreached. apply geb_true_iff in Hreached.
    rewrite Hreached. repeat split.
  - intros -> -> Hbelow. apply geb_false_iff in Hbelow.
    rewrite Hbelow. reflexivity.
Qed.

(** A run of C1 with threshold 1000 and increment 250: sizes 100, 250 and
    600 against an assessment threshold of 250. *)
Lemma default_shouldFlushDictionary_precedence_witness :
  let this := {| DefaultFlushPolicy.stripeSizeThreshold_ := 1000;
                 DefaultFlushPolicy.dictionarySizeThreshold_ := 500;
                 DefaultFlushPolicy.dictionaryAssessmentThreshold_ := 250 |} in
  let at_size n := {| stripeSizeEstimate := n; stripeRowCount := 7 |} in
  @DefaultFlushPolicy.shouldFlushDictionary quarterSchedule
    this true true (at_size 600) 0 = (FLUSH_DICTIONARY, this) /\
  @DefaultFlushPolicy.shouldFlushDictionary quarterSchedule
    this false true (at_size 600) 0 = (ABANDON_DICTIONARY, this) /\
  fst (@DefaultFlushPolicy.shouldFlushDictionary quarterSchedule
         this false false (at_size 250) 0) = EVALUATE_DICTIONARY /\
  @DefaultFlushPolicy.shouldFlushDictionary quarterSchedule
    this false false (at_size 100) 0 = (SKIP, this).
Proof.
  intros this at_size.
  pose proof (@default_shouldFlushDictionary_precedence quarterSchedule
                this true true (at_size 600) 0) as [Hflush _].
  pose proof (@default_shouldFlushDictionary_precedence quarterSchedule
                this false true (at_size 600) 0) as [_ [Habandon _]].
  pose proof (@default_shouldFlushDictionary_precedence quarterSchedule
                this false false (at_size 250) 0) as [_ [_ [Hevaluate _]]].
  pose proof (@default_shouldFlushDictionary_precedence quarterSchedule
                this false false (at_size 100) 0) as [_ [_ [_ Hskip]]].
  split; [exact (Hflush eq_refl) |].
  split; [exact (Habandon eq_refl eq_refl) |].
  split.
  - apply (Hevaluate eq_refl eq_refl). simpl. lia.
  - apply (Hskip eq_refl eq_refl). simpl. lia.
Defined.

(** C2.  [DefaultFlushPolicy::shouldFlush] answers [true] exactly when the
    snapshot's [stripeSizeEstimate] is at least the stripe-size threshold the
    policy holds, for every snapshot. *)
Theorem default_shouldFlush_iff :
  forall (this : DefaultFlushPolicy.t) (stripeProgress : StripeProgress),
    DefaultFlushPolicy.shouldFlush this stripeProgress = true <->
    stripeSizeEstimate stripeProgress >=
      DefaultFlushPolicy.stripeSizeThreshold_ this.
Proof.
  intros this sp. unfold DefaultFlushPolicy.shouldFlush. apply geb_true_iff.
Qed.

(** C7.  [RowThresholdFlushPolicy::shouldFlush] answers [true] exactly when
    the snapshot's [stripeRowCount] is at least the row-count threshold the
    policy holds, for every snapshot. *)
Theorem rowThreshold_shouldFlush_iff :
  forall (this : RowThresholdFlushPolicy.t) (stripeProgress : StripeProgress),
    RowThresholdFlushPolicy.shouldFlush this stripeProgress = true <->
    stripeRowCount stripeProgress >=
      RowThresholdFlushPolicy.rowCountThreshold_ this.
Proof.
  intros this sp. unfold RowThresholdFlushPolicy.shouldFlush.
  apply geb_true_iff.
Qed.

(** The examples of the spec: with stripe-size threshold 1000 the answer is
    [false] on sizes 0..999 and [true] from 1000 on; with row threshold 100
    it is [false] on row counts 0..99 and [true] from 100 on. *)
Example default_shouldFlush_at_1000 :
  let this := {| DefaultFlushPolicy.stripeSizeThreshold_ := 1000;
                 DefaultFlushPolicy.dictionarySizeThreshold_ := 500;
                 DefaultFlushPolicy.dictionaryAssessmentThreshold_ := 250 |} in
  forall size rows : Z,
    (0 <= size <= 999 ->
     DefaultFlushPolicy.shouldFlush this
       {| stripeSizeEstimate := size; stripeRowCount := rows |} = false) /\
    (1000 <= size ->
     DefaultFlushPolicy.shouldFlush this
       {| stripeSizeEstimate := size; stripeRowCount := rows |} = true).
Proof.
  intros this size rows. unfold DefaultFlushPolicy.shouldFlush. simpl.
  rewrite geb_true_iff, geb_false_iff. lia.
Qed.

Example rowThreshold_shouldFlush_at_100 :
  let this := {| RowThresholdFlushPolicy.rowCountThreshold_ := 100 |} in
  forall size rows : Z,
    (0 <= rows <= 99 ->
     RowThresholdFlushPolicy.shouldFlush this
       {| stripeSizeEstimate := size; stripeRowCount := rows |} = false) /\
    (100 <= rows ->
     RowThresholdFlushPolicy.shouldFlush this
       {| stripeSizeEstimate := size; stripeRowCount := rows |} = true).
Proof.
  intros this size rows. unfold RowThresholdFlushPolicy.shouldFlush. simpl.
  rewrite geb_true_iff, geb_false_iff. lia.
Qed.

(** C10.  Two-run noninterference.  Two default policies with the same
    stripe-size threshold, whatever their other members, give the same
    [shouldFlush] answer on two snapshots with the same [stripeSizeEstimate],
    whatever the snapshots' other field; two row-threshold policies with the
    same threshold give the same answer on two snapshots with the same
    [stripeRowCount]. *)
Theorem shouldFlush_noninterference :
  forall (d1 d2 : DefaultFlushPolicy.t) (a b : StripeProgress)
         (r1 r2 : RowThresholdFlushPolicy.t) (c d : StripeProgress),
    DefaultFlushPolicy.stripeSizeThreshold_ d1 =
      DefaultFlushPolicy.stripeSizeThreshold_ d2 ->
    stripeSizeEstimate a = stripeSizeEstimate b ->
    RowThresholdFlushPolicy.rowCountThreshold_ r1 =
      RowThresholdFlushPolicy.rowCountThreshold_ r2 ->
    stripeRowCount c = stripeRowCount d ->
    DefaultFlushPolicy.shouldFlush d1 a = DefaultFlushPolicy.shouldFlush d2 b
    /\
    RowThresholdFlushPolicy.shouldFlush r1 c =
      RowThresholdFlushPolicy.shouldFlush r2 d.
Proof.
  intros d1 d2 a b r1 r2 c d HT Hsize HR Hrows.
  unfold DefaultFlushPolicy.shouldFlush, RowThresholdFlushPolicy.shouldFlush.
  split; congruence.
Qed.

(** C10 on policies and snapshots that differ everywhere but in the fields
    read. *)
Lemma shouldFlush_noninterference_witness :
  let d1 := {| DefaultFlushPolicy.stripeSizeThreshold_ := 1000;
               DefaultFlushPolicy.dictionarySizeThreshold_ := 500;
               DefaultFlushPolicy.dictionaryAssessmentThreshold_ := 250 |} in
  let d2 := {| DefaultFlushPolicy.stripeSizeThreshold_ := 1000;
               DefaultFlushPolicy.dictionarySizeThreshold_ := 7;
               DefaultFlushPolicy.dictionaryAssessmentThreshold_ := 9000 |} in
  let a := {| stripeSizeEstimate := 1200; stripeRowCount := 3 |} in
  let b := {| stripeSizeEstimate := 1200; stripeRowCount := 800 |} in
  let r := {| RowThresholdFlushPolicy.rowCountThreshold_ := 100 |} in
  let c := {| stripeSizeEstimate := 5; stripeRowCount := 99 |} in
  let d := {| stripeSizeEstimate := 77777; stripeRowCount := 99 |} in
  DefaultFlushPolicy.shouldFlush d1 a = DefaultFlushPolicy.shouldFlush d2 b /\
  RowThresholdFlushPolicy.shouldFlush r c =
    RowThresholdFlushPolicy.shouldFlush r d.
Proof.
  intros d1 d2 a b r c d.
  apply (shouldFlush_noninterference d1 d2 a b r r c d); reflexivity.
Defined.

(** ** The predicate-based policy *)

(** C8.  One call of [LambdaFlushPolicy::shouldFlush] is one call of the
    stored closure: its outcome is the closure's outcome, a returned [bool]
    or the very exception thrown; the closure's environment is left as that
    one call leaves it; the invocation count grows by exactly one; and the
    snapshot passed plays no part.  Through the interface the object itself
    comes back unchanged. *)
Theorem lambda_shouldFlush_calls_once :
  forall (Env Exn : Type) (this : LambdaFlushPolicy.t Env Exn)
         (stripeProgress other : StripeProgress) (w : World Env),
    let called := LambdaFlushPolicy.lambda_ this (env w) in
    let result := LambdaFlushPolicy.shouldFlush this stripeProgress w in
    fst result = fst called /\
    env (snd result) = snd called /\
    invocations (snd result) = S (invocations w) /\
    LambdaFlushPolicy.shouldFlush this other w = result /\
    shouldFlush this stripeProgress w =
      (outcome_map (fun answer => (answer, this)) (fst called), snd result).
Proof.
  intros Env Exn this sp other w called result. subst called result.
  unfold LambdaFlushPolicy.shouldFlush, invoke. simpl.
  unfold bind, LambdaFlushPolicy.shouldFlush, invoke.
  destruct (LambdaFlushPolicy.lambda_ this (env w)) as [[answer | e] env'];
    simpl; repeat split; reflexivity.
Qed.

(** ** [onClose] *)

(** C9.  For each of the four policies, [onClose] called any number of times
    in a row returns without an exception and leaves the object and the world
    as they were: the first call has no effect, nor has any later one. *)
Theorem onClose_repeated_no_effect `{AssessmentSchedule} `{StripePosition} :
  forall (Env Exn : Type) (n : nat) (w : World Env),
    (forall this : DefaultFlushPolicy.t,
       closeRepeatedly (Exn := Exn) n this w = (Returned (tt, this), w)) /\
    (forall this : RowsPerStripeFlushPolicy.t,
       closeRepeatedly (Exn := Exn) n this w = (Returned (tt, this), w)) /\
    (forall this : RowThresholdFlushPolicy.t,
       closeRepeatedly (Exn := Exn) n this w = (Returned (tt, this), w)) /\
    (forall this : LambdaFlushPolicy.t Env Exn,
       closeRepeatedly n this w = (Returned (tt, this), w)).
Proof.
  intros Env Exn n w.
  repeat split; intros this; induction n as [| n IH]; simpl;
    try reflexivity; unfold bind; simpl; exact IH.
Qed.

(** [onClose] twice, the case the spec lists. *)
Example onClose_twice :
  let this := {| RowThresholdFlushPolicy.rowCountThreshold_ := 100 |} in
  let w := {| env := tt; invocations := 0 |} in
  closeRepeatedly (Exn := unit) 2 this w = (Returned (tt, this), w).
Proof. reflexivity. Qed.

(** ** [shouldFlushDictionary] on a closing stripe *)

(** C4, as stated, fails on the row-threshold policy: with [flushStripe] set
    its [shouldFlushDictionary] does not answer [FLUSH_DICTIONARY]. *)
Lemma rowThreshold_flushStripe_not_flush :
  RowThresholdFlushPolicy.shouldFlushDictionary
    {| RowThresholdFlushPolicy.rowCountThreshold_ := 100 |}
    true false
    {| stripeSizeEstimate := 2048; stripeRowCount := 100 |}
    {| dictionaryMemoryUsage := 0; memoryBudget := 1024 |}
  <> FLUSH_DICTIONARY.
Proof. unfold RowThresholdFlushPolicy.shouldFlushDictionary. discriminate. Qed.

(** C4, amended.  [shouldFlushDictionary] with [flushStripe] set answers
    [FLUSH_DICTIONARY] on the default policy, through the interface and
    through the overload taking the dictionary memory usage, whatever the
    other arguments.  Through the interface, on the row-sequence,
    row-threshold and predicate-based policies it answers [SKIP] whatever
    the arguments, [flushStripe] included.  No such call throws, changes the
    object or touches the world. *)
Theorem shouldFlushDictionary_on_flushStripe `{AssessmentSchedule}
    `{StripePosition} :
  forall (Env Exn : Type) (flushStripe overMemoryBudget : bool)
         (stripeProgress : StripeProgress) (context : WriterContext)
         (w : World Env),
    (forall this : DefaultFlushPolicy.t,
       shouldFlushDictionary (Exn := Exn)
         this true overMemoryBudget stripeProgress context w
       = (Returned (FLUSH_DICTIONARY, this), w)) /\
    (forall (this : DefaultFlushPolicy.t) (dictionaryMemoryUsage : Z),
       DefaultFlushPolicy.shouldFlushDictionary
         this true overMemoryBudget stripeProgress dictionaryMemoryUsage
       = (FLUSH_DICTIONARY, this)) /\
    (forall this : RowsPerStripeFlushPolicy.t,
       shouldFlushDictionary (Exn := Exn)
         this flushStripe overMemoryBudget stripeProgress context w
       = (Returned (SKIP, this), w)) /\
    (forall this : RowThresholdFlushPolicy.t,
       shouldFlushDictionary (Exn := Exn)
         this flushStripe overMemoryBudget stripeProgress context w
       = (Returned (SKIP, this), w)) /\
    (forall this : LambdaFlushPolicy.t Env Exn,
       shouldFlushDictionary
         this flushStripe overMemoryBudget stripeProgress context w
       = (Returned (SKIP, this), w)).
Proof.
  intros Env Exn f o sp ctx w. repeat split; intros; reflexivity.
Qed.

(** ** No flip-flop of [shouldFlush] within a stripe *)


Lemma StronglySorted_nth_error {A : Type} (R : A -> A -> Prop) :
  forall (l : list A) (i j : nat) (a b : A),
    StronglySorted R l -> (i < j)%nat ->
    nth_error l i = Some a -> nth_error l j = Some b -> R a b.
Proof.
  induction l as [| x l IH]; intros i j a b Hsorted Hlt Hi Hj.
  - destruct i; discriminate.
  - inversion Hsorted as [| ? ? Htail Hhead]; subst.
    destruct j as [| j]; [lia |]. simpl in Hj.
    destruct i as [| i]; simpl in Hi.
    + injection Hi as <-. rewrite Forall_forall in Hhead.
      apply Hhead. eapply nth_error_In; eassumption.
    + apply (IH i j); auto. lia.
Qed.

(** A policy whose [shouldFlush] is a function [f] of the snapshot, leaving
    object and world alone, answers [map f] on a stripe. *)
Lemma sampleStripe_pure {Env Exn P : Type} `{DWRFFlushPolicy Env Exn P}
    (this : P) (f : StripeProgress -> bool) :
  (forall stripeProgress w,
     shouldFlush this stripeProgress w = (Returned (f stripeProgress, this), w)) ->
  forall snapshots w,
    sampleStripe this snapshots w = map (fun sp => Returned (f sp)) snapshots.
Proof.
  intros Hpure snapshots.
  induction snapshots as [| sp later IH]; intros w; simpl.
  - reflexivity.
  - rewrite Hpure, IH. reflexivity.
Qed.

(** Answers that grow with the snapshot never flip back on a sorted stripe. *)
Lemma stays_true_monotone {Exn : Type} (f : StripeProgress -> bool) :
  (forall a b, progress_le a b -> f a = true -> f b = true) ->
  forall snapshots,
    Sorted progress_le snapshots ->
    stays_true (Exn := Exn) (map (fun sp => Returned (f sp)) snapshots).
Proof.
  intros Hmono snapshots Hsorted i j [Hij Hj] Hi.
  apply Sorted_StronglySorted in Hsorted; [| exact progress_le_trans].
  rewrite length_map in Hj.
  rewrite nth_error_map in Hi |- *.
  destruct (nth_error snapshots i) as [a |] eqn:Ha; [| discriminate].
  destruct (nth_error snapshots j) as [b |] eqn:Hb;
    [| apply nth_error_None in Hb; lia].
  simpl in *. injection Hi as Hfa. do 2 f_equal.
  apply (Hmono a b); [| exact Hfa].
  destruct (Nat.eq_dec i j) as [-> | Hne].
  - rewrite Ha in Hb. injection Hb as <-. apply progress_le_refl.
  - apply (StronglySorted_nth_error progress_le snapshots i j);
      auto. lia.
Qed.



(** ** Construction *)


Lemma forallb_positive (plan : list Z) :
  forallb (fun rows => 0 <? rows) plan = true <->
  Forall (fun rows => 0 < rows) plan.
Proof.
  rewrite forallb_forall, Forall_forall.
  split; intros Hall rows Hin; apply Z.ltb_lt; auto.
Qed.



(** * Further properties of the code in the header *)

(** ** Comparing two thresholds *)

(** X1.  Of two default policies, the one with the smaller stripe-size
    threshold flushes whenever the other does, and the two disagree on a
    snapshot exactly when its size lies from the smaller threshold up to,
    not including, the larger one. *)
Theorem default_threshold_comparison :
  forall (low high : DefaultFlushPolicy.t) (stripeProgress : StripeProgress),
    DefaultFlushPolicy.stripeSizeThreshold_ low
      <= DefaultFlushPolicy.stripeSizeThreshold_ high ->
    (DefaultFlushPolicy.shouldFlush high stripeProgress = true ->
     DefaultFlushPolicy.shouldFlush low stripeProgress = true) /\
    (DefaultFlushPolicy.shouldFlush low stripeProgress
       <> DefaultFlushPolicy.shouldFlush high stripeProgress
     <-> DefaultFlushPolicy.stripeSizeThreshold_ low
           <= stripeSizeEstimate stripeProgress
           < DefaultFlushPolicy.stripeSizeThreshold_ high).
Proof.
  intros low high sp Hle. unfold DefaultFlushPolicy.shouldFlush.
  destruct (stripeSizeEstimate sp >=? DefaultFlushPolicy.stripeSizeThreshold_ low)
    eqn:Hlow;
  destruct (stripeSizeEstimate sp >=? DefaultFlushPolicy.stripeSizeThreshold_ high)
    eqn:Hhigh;
  rewrite ?geb_true_iff, ?geb_false_iff in Hlow, Hhigh;
  (split; [intros; try reflexivity; try discriminate; lia |]);
  (split; [intros Hne; try (exfalso; apply Hne; reflexivity); lia
          | intros Hwin; try discriminate; lia]).
Qed.

(** X1 on thresholds 1000 and 4000 and a stripe of size 2500. *)
Lemma default_threshold_comparison_witness :
  let low := {| DefaultFlushPolicy.stripeSizeThreshold_ := 1000;
                DefaultFlushPolicy.dictionarySizeThreshold_ := 500;
                DefaultFlushPolicy.dictionaryAssessmentThreshold_ := 250 |} in
  let high := {| DefaultFlushPolicy.stripeSizeThreshold_ := 4000;
                 DefaultFlushPolicy.dictionarySizeThreshold_ := 500;
                 DefaultFlushPolicy.dictionaryAssessmentThreshold_ := 250 |} in
  let stripeProgress := {| stripeSizeEstimate := 2500; stripeRowCount := 8 |} in
  1000 <= 4000 /\
  DefaultFlushPolicy.shouldFlush low stripeProgress
    <> DefaultFlushPolicy.shouldFlush high stripeProgress.
Proof.
  intros low high sp.
  assert (Hle : 1000 <= 4000) by lia.
  split; [exact Hle |].
  apply (proj2 (default_threshold_comparison low high sp Hle)).
  simpl. lia.
Defined.

(** X2.  Of two row-threshold policies, the one with the smaller threshold
    flushes whenever the other does, and the two disagree on a snapshot
    exactly when its row count lies from the smaller threshold up to, not
    including, the larger one. *)
Theorem rowThreshold_threshold_comparison :
  forall (low high : RowThresholdFlushPolicy.t) (stripeProgress : StripeProgress),
    RowThresholdFlushPolicy.rowCountThreshold_ low
      <= RowThresholdFlushPolicy.rowCountThreshold_ high ->
    (RowThresholdFlushPolicy.shouldFlush high stripeProgress = true ->
     RowThresholdFlushPolicy.shouldFlush low stripeProgress = true) /\
    (RowThresholdFlushPolicy.shouldFlush low stripeProgress
       <> RowThresholdFlushPolicy.shouldFlush high stripeProgress
     <-> RowThresholdFlushPolicy.rowCountThreshold_ low
           <= stripeRowCount stripeProgress
           < RowThresholdFlushPolicy.rowCountThreshold_ high).
Proof.
  intros low high sp Hle. unfold RowThresholdFlushPolicy.shouldFlush.
  destruct (stripeRowCount sp >=? RowThresholdFlushPolicy.rowCountThreshold_ low)
    eqn:Hlow;
  destruct (stripeRowCount sp >=? RowThresholdFlushPolicy.rowCountThreshold_ high)
    eqn:Hhigh;
  rewrite ?geb_true_iff, ?geb_false_iff in Hlow, Hhigh;
  (split; [intros; try reflexivity; try discriminate; lia |]);
  (split; [intros Hne; try (exfalso; apply Hne; reflexivity); lia
          | intros Hwin; try discriminate; lia]).
Qed.

(** X2 on thresholds 100 and 300 and a stripe of 100 rows. *)
Lemma rowThreshold_threshold_comparison_witness :
  let low := {| RowThresholdFlushPolicy.rowCountThreshold_ := 100 |} in
  let high := {| RowThresholdFlushPolicy.rowCountThreshold_ := 300 |} in
  let stripeProgress := {| stripeSizeEstimate := 64; stripeRowCount := 100 |} in
  100 <= 300 /\
  RowThresholdFlushPolicy.shouldFlush low stripeProgress
    <> RowThresholdFlushPolicy.shouldFlush high stripeProgress.
Proof.
  intros low high sp.
  assert (Hle : 100 <= 300) by lia.
  split; [exact Hle |].
  apply (proj2 (rowThreshold_threshold_comparison low high sp Hle)).
  simpl. lia.
Defined.

(** ** The ends of the threshold range *)

(** X3.  On snapshots whose fields are [uint64_t] values: a threshold of 0
    makes [shouldFlush] answer [true] on every snapshot, the empty stripe
    included, and a threshold of [UINT64_MAX] makes it answer [true] only on
    a snapshot whose field is itself [UINT64_MAX].  This holds for the
    default policy on the stripe size and for the row-threshold policy on
    the row count. *)
Theorem shouldFlush_extreme_thresholds :
  forall (dictionarySizeThreshold assessmentThreshold : Z)
         (stripeProgress : StripeProgress),
    is_uint64 (stripeSizeEstimate stripeProgress) ->
    is_uint64 (stripeRowCount stripeProgress) ->
    let default_with threshold :=
      {| DefaultFlushPolicy.stripeSizeThreshold_ := threshold;
         DefaultFlushPolicy.dictionarySizeThreshold_ := dictionarySizeThreshold;
         DefaultFlushPolicy.dictionaryAssessmentThreshold_ :=
           assessmentThreshold |} in
    let rows_with threshold :=
      {| RowThresholdFlushPolicy.rowCountThreshold_ := threshold |} in
    DefaultFlushPolicy.shouldFlush (default_with 0) stripeProgress = true /\
    (DefaultFlushPolicy.shouldFlush (default_with UINT64_MAX) stripeProgress
       = true <-> stripeSizeEstimate stripeProgress = UINT64_MAX) /\
    RowThresholdFlushPolicy.shouldFlush (rows_with 0) stripeProgress = true /\
    (RowThresholdFlushPolicy.shouldFlush (rows_with UINT64_MAX) stripeProgress
       = true <-> stripeRowCount stripeProgress = UINT64_MAX).
Proof.
  intros D cursor sp [Hsize0 Hsize1] [Hrows0 Hrows1] default_with rows_with.
  subst default_with rows_with.
  unfold DefaultFlushPolicy.shouldFlush, RowThresholdFlushPolicy.shouldFlush.
  simpl. rewrite !geb_true_iff. repeat split; lia.
Qed.

(** X3 on the empty stripe. *)
Lemma shouldFlush_extreme_thresholds_witness :
  let empty := {| stripeSizeEstimate := 0; stripeRowCount := 0 |} in
  is_uint64 0 /\
  RowThresholdFlushPolicy.shouldFlush
    {| RowThresholdFlushPolicy.rowCountThreshold_ := 0 |} empty = true.
Proof.
  intros empty.
  assert (Hzero : is_uint64 0) by (split; [lia | vm_compute; discriminate]).
  split; [exact Hzero |].
  exact (proj1 (proj2 (proj2
           (shouldFlush_extreme_thresholds 500 250 empty Hzero Hzero)))).
Defined.

(** ** The predicate-based policy over a stripe *)

(** One call of [shouldFlush] through the interface, spelled out. *)
Lemma lambda_shouldFlush_interface {Env Exn : Type}
    (this : LambdaFlushPolicy.t Env Exn) (stripeProgress : StripeProgress)
    (w : World Env) :
  shouldFlush this stripeProgress w =
  (outcome_map (fun answer => (answer, this))
     (fst (LambdaFlushPolicy.lambda_ this (env w))),
   {| env := snd (LambdaFlushPolicy.lambda_ this (env w));
      invocations := S (invocations w) |}).
Proof.
  simpl. unfold bind, LambdaFlushPolicy.shouldFlush, invoke.
  destruct (LambdaFlushPolicy.lambda_ this (env w)) as [[answer | e] env'];
    reflexivity.
Qed.

Lemma stays_true_repeat {Exn : Type} (answer : Outcome Exn bool) (n : nat) :
  stays_true (repeat answer n).
Proof.
  intros i j [Hij Hj] Hi. rewrite repeat_length in Hj.
  assert (Hi' : (i < n)%nat) by lia.
  rewrite (nth_error_repeat answer Hi') in Hi.
  rewrite (nth_error_repeat answer Hj). exact Hi.
Qed.

(** X4.  When the stored closure is stateless, returning the same [bool]
    and leaving its environment as it found it, the predicate-based policy
    gives that answer on every snapshot of a stripe, so it never flips. *)
Theorem lambda_stateless_answers :
  forall (Env Exn : Type) (this : LambdaFlushPolicy.t Env Exn) (answer : bool)
         (snapshots : list StripeProgress) (w : World Env),
    (forall e : Env, LambdaFlushPolicy.lambda_ this e = (Returned answer, e)) ->
    sampleStripe this snapshots w
      = repeat (Returned answer) (length snapshots) /\
    stays_true (sampleStripe this snapshots w).
Proof.
  intros Env Exn this answer snapshots w Hstateless.
  assert (Hall : forall w',
             sampleStripe this snapshots w'
             = repeat (Returned answer) (length snapshots)).
  { induction snapshots as [| sp later IH]; intros w'; cbn [sampleStripe].
    - reflexivity.
    - rewrite lambda_shouldFlush_interface, Hstateless. cbn [fst outcome_map].
      rewrite IH. reflexivity. }
  split; [apply Hall |]. rewrite Hall. apply stays_true_repeat.
Qed.

(** X4 with the closure that always says no. *)
Lemma lambda_stateless_answers_witness :
  let never : Callable unit unit := fun e => (Returned false, e) in
  let this := {| LambdaFlushPolicy.lambda_ := never |} in
  let snapshots := [ {| stripeSizeEstimate := 10; stripeRowCount := 1 |};
                     {| stripeSizeEstimate := 20; stripeRowCount := 2 |} ] in
  (forall e : unit, never e = (Returned false, e)) /\
  sampleStripe this snapshots {| env := tt; invocations := 0 |}
    = [Returned false; Returned false].
Proof.
  intros never this snapshots.
  assert (Hstateless : forall e : unit, never e = (Returned false, e))
    by (intros e; reflexivity).
  split; [exact Hstateless |].
  exact (proj1 (lambda_stateless_answers unit unit this false snapshots
                  {| env := tt; invocations := 0 |} Hstateless)).
Defined.

(** X5.  Sampling a stripe with the predicate-based policy calls the closure
    once per answer obtained: the invocation count grows by the number of
    answers, which is at most the number of snapshots (an exception ends the
    sampling), and is the number of snapshots when the closure never
    throws. *)
Theorem lambda_invocations_over_stripe :
  forall (Env Exn : Type) (this : LambdaFlushPolicy.t Env Exn)
         (snapshots : list StripeProgress) (w : World Env),
    let answers := sampleStripe this snapshots w in
    invocations (stripeWorld this snapshots w)
      = (invocations w + length answers)%nat /\
    (length answers <= length snapshots)%nat /\
    ((forall e : Env, exists answer e',
        LambdaFlushPolicy.lambda_ this e = (Returned answer, e')) ->
     length answers = length snapshots).
Proof.
  intros Env Exn this snapshots.
  induction snapshots as [| sp later IH]; intros w answers; subst answers.
  - cbn. repeat split; lia.
  - cbn [sampleStripe stripeWorld]. rewrite lambda_shouldFlush_interface.
    destruct (LambdaFlushPolicy.lambda_ this (env w)) as [[answer | e] env']
      eqn:Hcalled; cbn [fst snd outcome_map].
    + specialize (IH {| env := env'; invocations := S (invocations w) |}).
      cbn zeta in IH. destruct IH as (Hcount & Hbound & Hall).
      rewrite Hcount. cbn [invocations length].
      repeat split; try lia.
      intros Hnever. rewrite (Hall Hnever). reflexivity.
    + cbn [invocations length]. repeat split; try lia.
      intros Hnever. destruct (Hnever (env w)) as (answer & e' & Hreturns).
      rewrite Hreturns in Hcalled. discriminate Hcalled.
Qed.

(** X5 with the toggling closure on three snapshots. *)
Lemma lambda_invocations_over_stripe_witness :
  let this := {| LambdaFlushPolicy.lambda_ := toggling |} in
  let snapshot := {| stripeSizeEstimate := 10; stripeRowCount := 1 |} in
  let snapshots := [snapshot; snapshot; snapshot] in
  let w := {| env := false; invocations := 4 |} in
  (forall e : bool, exists answer e', toggling e = (Returned answer, e')) /\
  invocations (stripeWorld this snapshots w) = 7%nat /\
  length (sampleStripe this snapshots w) = 3%nat.
Proof.
  intros this snapshot snapshots w.
  assert (Hnever : forall e : bool, exists answer e',
             LambdaFlushPolicy.lambda_ this e = (Returned answer, e'))
    by (intros e; exists e, (negb e); reflexivity).
  split; [exact Hnever |].
  destruct (lambda_invocations_over_stripe bool unit this snapshots w)
    as (Hcount & _ & Hall).
  split; [| exact (Hall Hnever)].
  rewrite Hcount, (Hall Hnever). reflexivity.
Defined.

(** X6.  The predicate-based policy does not look at the snapshots: two
    stripes with the same number of snapshots, sampled from the same world,
    get the same answers and leave the same world. *)
Theorem lambda_stripe_ignores_snapshots :
  forall (Env Exn : Type) (this : LambdaFlushPolicy.t Env Exn)
         (one other : list StripeProgress) (w : World Env),
    length one = length other ->
    sampleStripe this one w = sampleStripe this other w /\
    stripeWorld this one w = stripeWorld this other w.
Proof.
  intros Env Exn this one.
  induction one as [| sp later IH]; intros [| sp' later'] w Hlength;
    try discriminate Hlength.
  - split; reflexivity.
  - cbn [sampleStripe stripeWorld]. rewrite !lambda_shouldFlush_interface.
    destruct (LambdaFlushPolicy.lambda_ this (env w)) as [[answer | e] env'];
      cbn [fst snd outcome_map]; [| split; reflexivity].
    injection Hlength as Hlength.
    destruct (IH later' {| env := env'; invocations := S (invocations w) |}
                Hlength) as [Hanswers Hworld].
    rewrite Hanswers, Hworld. split; reflexivity.
Qed.

(** X6 on two stripes that share no snapshot. *)
Lemma lambda_stripe_ignores_snapshots_witness :
  let this := {| LambdaFlushPolicy.lambda_ := toggling |} in
  let one := [ {| stripeSizeEstimate := 10; stripeRowCount := 1 |};
               {| stripeSizeEstimate := 20; stripeRowCount := 2 |} ] in
  let other := [ {| stripeSizeEstimate := 900; stripeRowCount := 70 |};
                 {| stripeSizeEstimate := 5; stripeRowCount := 0 |} ] in
  let w := {| env := true; invocations := 0 |} in
  length one = length other /\
  sampleStripe this one w = sampleStripe this other w.
Proof.
  intros this one other w.
  assert (Hlength : length one = length other) by reflexivity.
  split; [exact Hlength |].
  exact (proj1 (lambda_stripe_ignores_snapshots bool unit this one other w
                  Hlength)).
Defined.

(** ** Where a threshold policy flushes on a stripe *)

Lemma map_all_true {Exn : Type} (f : StripeProgress -> bool)
    (snapshots : list StripeProgress) :
  Forall (fun sp => f sp = true) snapshots ->
  map (fun sp => @Returned Exn bool (f sp)) snapshots
    = repeat (Returned true) (length snapshots) /\
  filter (fun sp => negb (f sp)) snapshots = [].
Proof.
  induction 1 as [| sp later Hsp Hlater [IHmap IHfilter]]; cbn.
  - split; reflexivity.
  - rewrite Hsp, IHmap, IHfilter. split; reflexivity.
Qed.

(** On a sorted stripe, answers that grow with the snapshot are a run of
    [false] followed by a run of [true]. *)
Lemma sorted_answers_split {Exn : Type} (f : StripeProgress -> bool) :
  (forall a b, progress_le a b -> f a = true -> f b = true) ->
  forall snapshots,
    StronglySorted progress_le snapshots ->
    let refused := length (filter (fun sp => negb (f sp)) snapshots) in
    map (fun sp => @Returned Exn bool (f sp)) snapshots
    = repeat (Returned false) refused
      ++ repeat (Returned true) (length snapshots - refused).
Proof.
  intros Hmono snapshots Hsorted.
  induction Hsorted as [| sp later Hlater IH Hhead]; cbn zeta in *.
  - reflexivity.
  - destruct (f sp) eqn:Hsp.
    + assert (Hall : Forall (fun b => f b = true) later).
      { rewrite Forall_forall in *. intros b Hin.
        apply (Hmono sp b); auto. }
      destruct (map_all_true (Exn := Exn) f later Hall) as [Hmap Hfilter].
      cbn [map filter length]. rewrite Hsp, Hmap. cbn [negb].
      rewrite Hfilter. cbn. reflexivity.
    + cbn [map filter length]. rewrite Hsp. cbn [negb length repeat app].
      rewrite IH. reflexivity.
Qed.

(** X7.  On a stripe whose snapshots are in non-decreasing order, the
    default policy answers [false] on exactly the snapshots whose size is
    below its stripe-size threshold, all of them coming first, and [true]
    on all the others; the row-threshold policy does the same with the row
    count and its threshold.  The first flush is asked at the first
    snapshot that reaches the threshold. *)
Theorem threshold_flush_point `{AssessmentSchedule} :
  forall (Env Exn : Type) (d : DefaultFlushPolicy.t)
         (r : RowThresholdFlushPolicy.t)
         (snapshots : list StripeProgress) (w : World Env),
    Sorted progress_le snapshots ->
    let small :=
      length (filter (fun sp => stripeSizeEstimate sp
                                <? DefaultFlushPolicy.stripeSizeThreshold_ d)
                     snapshots) in
    let short :=
      length (filter (fun sp => stripeRowCount sp
                                <? RowThresholdFlushPolicy.rowCountThreshold_ r)
                     snapshots) in
    sampleStripe (Exn := Exn) d snapshots w
      = repeat (Returned false) small
        ++ repeat (Returned true) (length snapshots - small) /\
    sampleStripe (Exn := Exn) r snapshots w
      = repeat (Returned false) short
        ++ repeat (Returned true) (length snapshots - short).
Proof.
  intros Env Exn d r snapshots w Hsorted small short. subst small short.
  apply Sorted_StronglySorted in Hsorted; [| exact progress_le_trans].
  split.
  - rewrite (sampleStripe_pure d (DefaultFlushPolicy.shouldFlush d))
      by reflexivity.
    rewrite (filter_ext
               (fun sp => stripeSizeEstimate sp
                          <? DefaultFlushPolicy.stripeSizeThreshold_ d)
               (fun sp => negb (DefaultFlushPolicy.shouldFlush d sp))).
    + apply sorted_answers_split; [| exact Hsorted].
      intros a b [Hsize _]. unfold DefaultFlushPolicy.shouldFlush.
      rewrite !geb_true_iff. lia.
    + intros sp. unfold DefaultFlushPolicy.shouldFlush.
      rewrite Z.geb_leb. apply Z.ltb_antisym.
  - rewrite (sampleStripe_pure r (RowThresholdFlushPolicy.shouldFlush r))
      by reflexivity.
    rewrite (filter_ext
               (fun sp => stripeRowCount sp
                          <? RowThresholdFlushPolicy.rowCountThreshold_ r)
               (fun sp => negb (RowThresholdFlushPolicy.shouldFlush r sp))).
    + apply sorted_answers_split; [| exact Hsorted].
      intros a b [_ Hrows]. unfold RowThresholdFlushPolicy.shouldFlush.
      rewrite !geb_true_iff. lia.
    + intros sp. unfold RowThresholdFlushPolicy.shouldFlush.
      rewrite Z.geb_leb. apply Z.ltb_antisym.
Qed.

(** X7 on a stripe that reaches 100 rows at its third snapshot and 1000
    bytes at its fourth. *)
Lemma threshold_flush_point_witness :
  let d := {| DefaultFlushPolicy.stripeSizeThreshold_ := 1000;
              DefaultFlushPolicy.dictionarySizeThreshold_ := 500;
              DefaultFlushPolicy.dictionaryAssessmentThreshold_ := 250 |} in
  let r := {| RowThresholdFlushPolicy.rowCountThreshold_ := 100 |} in
  let snapshots := [ {| stripeSizeEstimate := 0; stripeRowCount := 0 |};
                     {| stripeSizeEstimate := 400; stripeRowCount := 50 |};
                     {| stripeSizeEstimate := 800; stripeRowCount := 100 |};
                     {| stripeSizeEstimate := 1000; stripeRowCount := 120 |} ] in
  let w := {| env := tt; invocations := 0 |} in
  Sorted progress_le snapshots /\
  @sampleStripe unit unit _ (@DefaultFlushPolicy_impl unit unit quarterSchedule)
    d snapshots w
  = [Returned false; Returned false; Returned false; Returned true] /\
  sampleStripe (Exn := unit) r snapshots w
  = [Returned false; Returned false; Returned true; Returned true].
Proof.
  intros d r snapshots w.
  assert (Hsorted : Sorted progress_le snapshots)
    by (repeat constructor; simpl; lia).
  split; [exact Hsorted |].
  exact (@threshold_flush_point quarterSchedule unit unit
           d r snapshots w Hsorted).
Defined.
